(** * Pipal: the [Problem] interface and the [ProblemWrapper] adapter

    A shallow embedding of [include/Pipal/Problem.hh].  The header declares
    an abstract class template [Problem<Real, N, M>] with six pure virtual
    evaluation operations, and a class template [ProblemWrapper<Real, N, M>]
    that stores six [std::function] handles, exposes a getter and a setter
    for each, and overrides every evaluation by calling the stored handle.

    Conventions of the embedding:
    - a [std::function<R(Args...)>] is an optional callable, the empty
      function ([nullptr]) is [None]; calling it is [invoke], which throws
      [std::bad_function_call] on the empty function, as the C++ standard
      library does;
    - a stored callable, the target, is any copyable function object: it
      carries what it captured, its call may return a value or throw, and
      may change what it captured; a copy of a [std::function] holds its own
      copy of the target (state that several callables reach through a
      reference or a pointer is outside the embedding);
    - a member function is a computation over the object it is called on
      ([this]), returning an outcome (a value or a thrown exception) and the
      object afterwards; the state of an object includes what the targets
      of its handles captured;
    - objects live in a store indexed by addresses, so that two objects are
      two cells and a copy is a new cell. *)

From Stdlib Require Import ZArith String PrimFloat.
From stdpp Require Import base option list vector gmap.

Module Pipal.

(** ** Outcomes and member functions *)

(** [bad_function_call] is the only exception the header can raise by
    itself: the one thrown by [std::function::operator()] on an empty
    function.  Any other exception comes out of a stored callable and is
    identified by its [what()]. *)
Inductive exception : Set :=
  | bad_function_call
  | thrown (what : string).

Inductive outcome (T : Type) : Type :=
  | Returns (v : T)
  | Throws (e : exception).

Arguments Returns {T} v.
Arguments Throws {T} e.

(** A member function of a class whose objects have state [S]. *)
Definition Method (S T : Type) : Type := S -> outcome T * S.

Definition bind {S T U} (m : Method S T) (k : T -> Method S U) : Method S U :=
  fun this =>
    match m this with
    | (Returns v, this') => k v this'
    | (Throws e, this') => (Throws e, this')
    end.

(** [a; b] for two calls made one after the other on the same object. *)
Definition and_then {S T U} (m : Method S T) (k : Method S U) : Method S U :=
  bind m (fun _ => k).

Infix ">>" := and_then (at level 65, right associativity).

(** A [const]-qualified member function that only reads the members of
    [this]: it leaves the object as it is. *)
Definition const_method {S T} (body : S -> outcome T) : Method S T :=
  fun this => (body this, this).

(** A [void] member function that assigns to members and returns normally. *)
Definition mutator {S} (body : S -> S) : Method S unit :=
  fun this => (Returns tt, body this).

(** The outcome of a call and the object after it. *)
Definition outcome_of {S T} (m : Method S T) (this : S) : outcome T := fst (m this).
Definition object_after {S T} (m : Method S T) (this : S) : S := snd (m this).

(** ** [std::function] *)

(** The callable that a [std::function<R(Args...)>] holds, its target: what
    it captured (the data members of a function object, the captures of a
    lambda; nothing for a plain function) and its call operator, which
    returns a value or throws and may change what was captured (a [mutable]
    lambda, a function object with a call operator that is not [const]).
    The arguments are taken as one tuple [A]. *)
Record target (A R : Type) : Type := {
  captures : Type;
  captured : captures;
  body : captures -> A -> outcome R * captures
}.

Arguments captures {A R} _.
Arguments captured {A R} _.
Arguments body {A R} _ _ _.

(** A plain function, or a lambda that captures nothing and never throws. *)
Definition pure_target {A R} (f : A -> R) : target A R :=
  {| captures := unit;
     captured := tt;
     body := fun nothing args => (Returns (f args), nothing) |}.

(** The target called on [args]: the outcome, and the target with what it
    now holds. *)
Definition call_target {A R} (t : target A R) (args : A) : outcome R * target A R :=
  let completion := body t (captured t) args in
  (fst completion,
   {| captures := captures t; captured := snd completion; body := body t |}).

(** [std::function<R(Args...)>]: empty, or holding a target. *)
Definition std_function (A R : Type) : Type := option (target A R).

Definition nullptr {A R} : std_function A R := None.

(** [static_cast<bool>(f)]: does [f] hold a callable? *)
Definition has_target {A R} (f : std_function A R) : bool :=
  match f with
  | Some _ => true
  | None => false
  end.

(** [f(args...)]: [std::function::operator()].  It is a [const] member
    function, yet it calls the target as an object that is not [const]: the
    call yields its outcome and the function object as the call left it. *)
Definition invoke {A R} (f : std_function A R) (args : A)
    : outcome R * std_function A R :=
  match f with
  | Some t => (fst (call_target t args), Some (snd (call_target t args)))
  | None => (Throws bad_function_call, None)
  end.

(** ** Template arguments and the static assertions of [Problem] *)

(** The types a caller may pass for [Real]. *)
Inductive cxx_type : Set :=
  | cxx_bool
  | cxx_char
  | cxx_int
  | cxx_long
  | cxx_unsigned
  | cxx_float
  | cxx_double
  | cxx_long_double
  | cxx_class (name : string).

(** [std::is_floating_point<T>::value]. *)
Definition is_floating_point (T : cxx_type) : bool :=
  match T with
  | cxx_float | cxx_double | cxx_long_double => true
  | _ => false
  end.

(** [Pipal::Integer] is declared in another header of the library; it is a
    signed integer type, so a template argument may be zero or negative. *)
Definition Integer : Set := Z.

(** A [static_assert(cond, msg)] adds [msg] to the diagnostics of the
    translation unit when [cond] is false. *)
Definition static_assert (cond : bool) (msg : string) : list string :=
  if cond then [] else [msg].

(** The three assertions at the head of [class Problem]. *)
Definition Problem_static_asserts (Real : cxx_type) (N M : Integer) : list string :=
  static_assert (is_floating_point Real)
    "Pipal::Problem: template argument 'Real' must be a floating-point type."
  ++ static_assert (0 <? N)%Z
    "Pipal::Problem: template argument 'N' must be positive."
  ++ static_assert (0 <? M)%Z
    "Pipal::Problem: template argument 'M' must be positive.".

(** Instantiating a class template either defines the class or is ill-formed
    with the diagnostics of its failed assertions. *)
Inductive instantiation : Set :=
  | Defined_class
  | Ill_formed (diagnostics : list string).

Definition instantiate_Problem (Real : cxx_type) (N M : Integer) : instantiation :=
  match Problem_static_asserts Real N M with
  | [] => Defined_class
  | diagnostics => Ill_formed diagnostics
  end.

(** [ProblemWrapper<Real, N, M>] derives from [Problem<Real, N, M>]: its
    definition needs the base class, and adds no assertion of its own. *)
Definition instantiate_ProblemWrapper (Real : cxx_type) (N M : Integer) : instantiation :=
  instantiate_Problem Real N M.

(** ** The class templates *)

Section Templates.

(** [template<typename Real, Integer N, Integer M>], for arguments that
    passed the assertions. *)
Context {Real : Type} {N M : nat}.

(** [Eigen::Vector<Real, N>], [Eigen::Vector<Real, M>]. *)
Definition VectorN : Type := vec Real N.
Definition VectorM : Type := vec Real M.
(** [Eigen::Matrix<Real, N, N>] and [Eigen::Matrix<Real, M, N>], as the
    vector of their rows. *)
Definition MatrixH : Type := vec (vec Real N) N.
Definition MatrixJ : Type := vec (vec Real N) M.

(** [class Problem]: the six pure virtual evaluation operations, all
    [const]. *)
Class Problem (Self : Type) : Type := {
  objective : VectorN -> Method Self Real;
  objective_gradient : VectorN -> Method Self VectorN;
  objective_hessian : VectorN -> Method Self MatrixH;
  constraints : VectorN -> Method Self VectorM;
  constraints_jacobian : VectorN -> VectorM -> Method Self MatrixJ;
  lagrangian_hessian : VectorN -> VectorM -> Method Self MatrixH
}.

Definition ObjectiveFunc : Type := std_function VectorN Real.
Definition ObjectiveGradientFunc : Type := std_function VectorN VectorN.
Definition ObjectiveHessianFunc : Type := std_function VectorN MatrixH.
Definition ConstraintsFunc : Type := std_function VectorN VectorM.
Definition ConstraintsJacobianFunc : Type := std_function (VectorN * VectorM) MatrixJ.
Definition LagrangianHessianFunc : Type := std_function (VectorN * VectorM) MatrixH.

(** The data members of [class ProblemWrapper]. *)
Record ProblemWrapper : Type := {
  m_objective : ObjectiveFunc;
  m_objective_gradient : ObjectiveGradientFunc;
  m_objective_hessian : ObjectiveHessianFunc;
  m_constraints : ConstraintsFunc;
  m_constraints_jacobian : ConstraintsJacobianFunc;
  m_lagrangian_hessian : LagrangianHessianFunc
}.

(** The default member initializers: every handle is [{nullptr}]. *)
Definition default_members : ProblemWrapper :=
  {| m_objective := nullptr;
     m_objective_gradient := nullptr;
     m_objective_hessian := nullptr;
     m_constraints := nullptr;
     m_constraints_jacobian := nullptr;
     m_lagrangian_hessian := nullptr |}.

(** The constructor with five handles: [m_objective_hessian] is not in the
    member initializer list and keeps its default. *)
Definition ProblemWrapper_5
    (objective : ObjectiveFunc) (objective_gradient : ObjectiveGradientFunc)
    (constraints : ConstraintsFunc) (constraints_jacobian : ConstraintsJacobianFunc)
    (lagrangian_hessian : LagrangianHessianFunc) : ProblemWrapper :=
  {| m_objective := objective;
     m_objective_gradient := objective_gradient;
     m_objective_hessian := m_objective_hessian default_members;
     m_constraints := constraints;
     m_constraints_jacobian := constraints_jacobian;
     m_lagrangian_hessian := lagrangian_hessian |}.

(** The constructor with six handles. *)
Definition ProblemWrapper_6
    (objective : ObjectiveFunc) (objective_gradient : ObjectiveGradientFunc)
    (objective_hessian : ObjectiveHessianFunc)
    (constraints : ConstraintsFunc) (constraints_jacobian : ConstraintsJacobianFunc)
    (lagrangian_hessian : LagrangianHessianFunc) : ProblemWrapper :=
  {| m_objective := objective;
     m_objective_gradient := objective_gradient;
     m_objective_hessian := objective_hessian;
     m_constraints := constraints;
     m_constraints_jacobian := constraints_jacobian;
     m_lagrangian_hessian := lagrangian_hessian |}.

(** The implicitly defined copy constructor: every member is copied. *)
Definition ProblemWrapper_copy (other : ProblemWrapper) : ProblemWrapper :=
  {| m_objective := m_objective other;
     m_objective_gradient := m_objective_gradient other;
     m_objective_hessian := m_objective_hessian other;
     m_constraints := m_constraints other;
     m_constraints_jacobian := m_constraints_jacobian other;
     m_lagrangian_hessian := m_lagrangian_hessian other |}.

(** *** Getters and setters *)

Definition get_objective : Method ProblemWrapper ObjectiveFunc :=
  const_method (fun this => Returns (m_objective this)).

Definition set_objective (objective : ObjectiveFunc) : Method ProblemWrapper unit :=
  mutator (fun this =>
    {| m_objective := objective;
       m_objective_gradient := m_objective_gradient this;
       m_objective_hessian := m_objective_hessian this;
       m_constraints := m_constraints this;
       m_constraints_jacobian := m_constraints_jacobian this;
       m_lagrangian_hessian := m_lagrangian_hessian this |}).

Definition get_objective_gradient : Method ProblemWrapper ObjectiveGradientFunc :=
  const_method (fun this => Returns (m_objective_gradient this)).

Definition set_objective_gradient (objective_gradient : ObjectiveGradientFunc)
    : Method ProblemWrapper unit :=
  mutator (fun this =>
    {| m_objective := m_objective this;
       m_objective_gradient := objective_gradient;
       m_objective_hessian := m_objective_hessian this;
       m_constraints := m_constraints this;
       m_constraints_jacobian := m_constraints_jacobian this;
       m_lagrangian_hessian := m_lagrangian_hessian this |}).

Definition get_objective_hessian : Method ProblemWrapper ObjectiveHessianFunc :=
  const_method (fun this => Returns (m_objective_hessian this)).

Definition set_objective_hessian (objective_hessian : ObjectiveHessianFunc)
    : Method ProblemWrapper unit :=
  mutator (fun this =>
    {| m_objective := m_objective this;
       m_objective_gradient := m_objective_gradient this;
       m_objective_hessian := objective_hessian;
       m_constraints := m_constraints this;
       m_constraints_jacobian := m_constraints_jacobian this;
       m_lagrangian_hessian := m_lagrangian_hessian this |}).

Definition get_constraints : Method ProblemWrapper ConstraintsFunc :=
  const_method (fun this => Returns (m_constraints this)).

Definition set_constraints (constraints : ConstraintsFunc) : Method ProblemWrapper unit :=
  mutator (fun this =>
    {| m_objective := m_objective this;
       m_objective_gradient := m_objective_gradient this;
       m_objective_hessian := m_objective_hessian this;
       m_constraints := constraints;
       m_constraints_jacobian := m_constraints_jacobian this;
       m_lagrangian_hessian := m_lagrangian_hessian this |}).

Definition get_constraints_jacobian : Method ProblemWrapper ConstraintsJacobianFunc :=
  const_method (fun this => Returns (m_constraints_jacobian this)).

Definition set_constraints_jacobian (constraints_jacobian : ConstraintsJacobianFunc)
    : Method ProblemWrapper unit :=
  mutator (fun this =>
    {| m_objective := m_objective this;
       m_objective_gradient := m_objective_gradient this;
       m_objective_hessian := m_objective_hessian this;
       m_constraints := m_constraints this;
       m_constraints_jacobian := constraints_jacobian;
       m_lagrangian_hessian := m_lagrangian_hessian this |}).

Definition get_lagrangian_hessian : Method ProblemWrapper LagrangianHessianFunc :=
  const_method (fun this => Returns (m_lagrangian_hessian this)).

Definition set_lagrangian_hessian (lagrangian_hessian : LagrangianHessianFunc)
    : Method ProblemWrapper unit :=
  mutator (fun this =>
    {| m_objective := m_objective this;
       m_objective_gradient := m_objective_gradient this;
       m_objective_hessian := m_objective_hessian this;
       m_constraints := m_constraints this;
       m_constraints_jacobian := m_constraints_jacobian this;
       m_lagrangian_hessian := lagrangian_hessian |}).

(** *** The evaluation overrides *)

(** Each override is [return this->m_X(args);] in a [const] member
    function.  The member is not assigned, but the call reaches the target
    it holds: the object afterwards stores the handle as the call left it. *)
#[export] Instance ProblemWrapper_Problem : Problem ProblemWrapper := {|
  objective x := fun this =>
    let called := invoke (m_objective this) x in
    (fst called,
      {| m_objective := snd called;
         m_objective_gradient := m_objective_gradient this;
         m_objective_hessian := m_objective_hessian this;
         m_constraints := m_constraints this;
         m_constraints_jacobian := m_constraints_jacobian this;
         m_lagrangian_hessian := m_lagrangian_hessian this |});
  objective_gradient x := fun this =>
    let called := invoke (m_objective_gradient this) x in
    (fst called,
      {| m_objective := m_objective this;
         m_objective_gradient := snd called;
         m_objective_hessian := m_objective_hessian this;
         m_constraints := m_constraints this;
         m_constraints_jacobian := m_constraints_jacobian this;
         m_lagrangian_hessian := m_lagrangian_hessian this |});
  objective_hessian x := fun this =>
    let called := invoke (m_objective_hessian this) x in
    (fst called,
      {| m_objective := m_objective this;
         m_objective_gradient := m_objective_gradient this;
         m_objective_hessian := snd called;
         m_constraints := m_constraints this;
         m_constraints_jacobian := m_constraints_jacobian this;
         m_lagrangian_hessian := m_lagrangian_hessian this |});
  constraints x := fun this =>
    let called := invoke (m_constraints this) x in
    (fst called,
      {| m_objective := m_objective this;
         m_objective_gradient := m_objective_gradient this;
         m_objective_hessian := m_objective_hessian this;
         m_constraints := snd called;
         m_constraints_jacobian := m_constraints_jacobian this;
         m_lagrangian_hessian := m_lagrangian_hessian this |});
  constraints_jacobian x z := fun this =>
    let called := invoke (m_constraints_jacobian this) (x, z) in
    (fst called,
      {| m_objective := m_objective this;
         m_objective_gradient := m_objective_gradient this;
         m_objective_hessian := m_objective_hessian this;
         m_constraints := m_constraints this;
         m_constraints_jacobian := snd called;
         m_lagrangian_hessian := m_lagrangian_hessian this |});
  lagrangian_hessian x z := fun this =>
    let called := invoke (m_lagrangian_hessian this) (x, z) in
    (fst called,
      {| m_objective := m_objective this;
         m_objective_gradient := m_objective_gradient this;
         m_objective_hessian := m_objective_hessian this;
         m_constraints := m_constraints this;
         m_constraints_jacobian := m_constraints_jacobian this;
         m_lagrangian_hessian := snd called |})
|}.

(** *** The six operations, by name

    The header repeats one pattern six times.  To state a property of
    "every operation X" once, the members are indexed by the operation
    they serve; each index only selects one of the members above. *)

Inductive operation : Set :=
  | Objective
  | ObjectiveGradient
  | ObjectiveHessian
  | Constraints
  | ConstraintsJacobian
  | LagrangianHessian.

Definition arguments_of (X : operation) : Type :=
  match X with
  | Objective | ObjectiveGradient | ObjectiveHessian | Constraints => VectorN
  | ConstraintsJacobian | LagrangianHessian => (VectorN * VectorM)%type
  end.

Definition value_of (X : operation) : Type :=
  match X with
  | Objective => Real
  | ObjectiveGradient => VectorN
  | ObjectiveHessian => MatrixH
  | Constraints => VectorM
  | ConstraintsJacobian => MatrixJ
  | LagrangianHessian => MatrixH
  end.

Definition handle_of (X : operation) : Type :=
  std_function (arguments_of X) (value_of X).

Definition member (X : operation) : ProblemWrapper -> handle_of X :=
  match X with
  | Objective => m_objective
  | ObjectiveGradient => m_objective_gradient
  | ObjectiveHessian => m_objective_hessian
  | Constraints => m_constraints
  | ConstraintsJacobian => m_constraints_jacobian
  | LagrangianHessian => m_lagrangian_hessian
  end.

Definition getter (X : operation) : Method ProblemWrapper (handle_of X) :=
  match X with
  | Objective => get_objective
  | ObjectiveGradient => get_objective_gradient
  | ObjectiveHessian => get_objective_hessian
  | Constraints => get_constraints
  | ConstraintsJacobian => get_constraints_jacobian
  | LagrangianHessian => get_lagrangian_hessian
  end.

Definition setter (X : operation) : handle_of X -> Method ProblemWrapper unit :=
  match X with
  | Objective => set_objective
  | ObjectiveGradient => set_objective_gradient
  | ObjectiveHessian => set_objective_hessian
  | Constraints => set_constraints
  | ConstraintsJacobian => set_constraints_jacobian
  | LagrangianHessian => set_lagrangian_hessian
  end.

(** A call of the evaluation X through the [Problem] interface. *)
Definition evaluate (X : operation)
    : arguments_of X -> Method ProblemWrapper (value_of X) :=
  match X with
  | Objective => fun x => objective x
  | ObjectiveGradient => fun x => objective_gradient x
  | ObjectiveHessian => fun x => objective_hessian x
  | Constraints => fun x => constraints x
  | ConstraintsJacobian => fun xz => constraints_jacobian (fst xz) (snd xz)
  | LagrangianHessian => fun xz => lagrangian_hessian (fst xz) (snd xz)
  end.

(** *** Objects in memory *)

(** An address, and the wrappers that live at the addresses in use. *)
Definition address : Set := nat.

(** [new ProblemWrapper(...)], or a declaration of a local object: the
    object is put at an address not in use. *)
Definition construct (object : ProblemWrapper) (memory : gmap address ProblemWrapper)
    : address * gmap address ProblemWrapper :=
  let a := fresh (dom memory) in (a, <[a := object]> memory).

(** [ProblemWrapper copy(other)]: the copy constructor, on the object at
    address [other]. *)
Definition copy_construct (other : address) (memory : gmap address ProblemWrapper)
    : option (address * gmap address ProblemWrapper) :=
  match memory !! other with
  | Some object => Some (construct (ProblemWrapper_copy object) memory)
  | None => None
  end.

(** [p->method(...)]: a member function called on the object at address
    [p]; the object is written back as the call left it. *)
Definition call_on {T} (p : address) (method : Method ProblemWrapper T)
    (memory : gmap address ProblemWrapper)
    : option (outcome T * gmap address ProblemWrapper) :=
  match memory !! p with
  | Some this =>
      let (result, this') := method this in
      Some (result, <[p := this']> memory)
  | None => None
  end.

End Templates.

Arguments VectorN : clear implicits.
Arguments VectorM : clear implicits.
Arguments MatrixH : clear implicits.
Arguments MatrixJ : clear implicits.
Arguments ObjectiveFunc : clear implicits.
Arguments ObjectiveGradientFunc : clear implicits.
Arguments ObjectiveHessianFunc : clear implicits.
Arguments ConstraintsFunc : clear implicits.
Arguments ConstraintsJacobianFunc : clear implicits.
Arguments LagrangianHessianFunc : clear implicits.
Arguments Problem : clear implicits.
Arguments ProblemWrapper : clear implicits.
Arguments arguments_of : clear implicits.
Arguments value_of : clear implicits.
Arguments handle_of : clear implicits.

(** ** Reading outcomes and shapes *)

(** What the outcome [o] of a call through a handle owes to the handle:
    with a callable in it, [o] is how that callable completes on [args];
    with none, [o] is the error of the empty function. *)
Definition completes_as {A R} (supplied : std_function A R) (args : A)
    (o : outcome R) : Prop :=
  match supplied with
  | Some callable => o = fst (body callable (captured callable) args)
  | None => o = Throws bad_function_call
  end.

(** The number of rows of a matrix and the length of each of its rows, read
    off the data. *)
Definition rows_of {A n m} (J : vec (vec A n) m) : nat :=
  length (vec_to_list J).

Definition row_lengths_of {A n m} (J : vec (vec A n) m) : list nat :=
  (fun row => length (vec_to_list row)) <$> vec_to_list J.

(** ** The example scenario: N = 2, M = 2, Real = double *)

Module Scenario.

(** [double] is IEEE 754 binary64. *)
Definition Real : Set := float.

(** Modelled from the spec: the five handles of the example scenario (the
    functions the example passes to the constructor are not part of the
    header).  Objective [x1^2 + x2^2]. *)
Definition f : VectorN Real 2 -> Real :=
  fun x => (x !!! 0%fin * x !!! 0%fin + x !!! 1%fin * x !!! 1%fin)%float.

(** Modelled from the spec: the example gradient [(2 x1, 2 x2)]. *)
Definition grad_f : VectorN Real 2 -> VectorN Real 2 :=
  fun x => [# (2 * x !!! 0%fin)%float; (2 * x !!! 1%fin)%float ].

(** Modelled from the spec: the example constraints [(x1 - 1, x2 - 1)]. *)
Definition g : VectorN Real 2 -> VectorM Real 2 :=
  fun x => [# (x !!! 0%fin - 1)%float; (x !!! 1%fin - 1)%float ].

(** Modelled from the spec: the 2x2 identity matrix and its double, the
    values of the example Jacobian and Hessian. *)
Definition identity : vec (vec Real 2) 2 :=
  [# [# 1%float; 0%float ]; [# 0%float; 1%float ] ].

Definition twice_identity : vec (vec Real 2) 2 :=
  [# [# 2%float; 0%float ]; [# 0%float; 2%float ] ].

(** Modelled from the spec: the example Jacobian, the identity matrix at
    every point and every dual vector. *)
Definition jac_g : VectorN Real 2 * VectorM Real 2 -> MatrixJ Real 2 2 :=
  fun _ => identity.

(** Modelled from the spec: the example Hessian of the Lagrangian, twice
    the identity matrix. *)
Definition hess_L : VectorN Real 2 * VectorM Real 2 -> MatrixH Real 2 :=
  fun _ => twice_identity.

(** The example problem, built with the five-handle constructor. *)
Definition problem : ProblemWrapper Real 2 2 :=
  ProblemWrapper_5 (Some (pure_target f)) (Some (pure_target grad_f))
    (Some (pure_target g)) (Some (pure_target jac_g)) (Some (pure_target hess_L)).

Definition ones : VectorN Real 2 := [# 1%float; 1%float ].



End Scenario.

(** ** Sequences of calls *)

Section Sequences.

Context {Real : Type} {N M : nat}.

(** The empty statement. *)
Definition skip : Method (ProblemWrapper Real N M) unit :=
  fun this => (Returns tt, this).

(** One setter call of a program, [p.X(H)]: the operation and the handle
    passed. *)
Definition setter_call : Type := { X : operation & handle_of Real N M X }.

(** The setter calls of a program, made in order on one object. *)
Definition run_setters (calls : list setter_call)
    : Method (ProblemWrapper Real N M) unit :=
  foldr (fun c rest => setter (projT1 c) (projT2 c) >> rest) skip calls.

(** One evaluation of a program, [p.X(args)]: the operation and its
    arguments. *)
Definition evaluation_call : Type := { X : operation & arguments_of Real N M X }.

(** The evaluations of a program, made in order on one object; an exception
    ends the sequence where it is thrown. *)
Definition run_evaluations (calls : list evaluation_call)
    : Method (ProblemWrapper Real N M) unit :=
  foldr (fun c rest => evaluate (projT1 c) (projT2 c) >> rest) skip calls.

End Sequences.

Arguments setter_call : clear implicits.
Arguments evaluation_call : clear implicits.

(** ** Properties of the adapter *)

Section Properties.

Context {Real : Type} {N M : nat}.

Implicit Types (this other : ProblemWrapper Real N M).
Implicit Types (x : VectorN Real N) (z : VectorM Real M).
Implicit Types (X Y : operation).

(** Every evaluation override is one call of the stored handle, on the
    arguments it was given; afterwards the object stores that handle as the
    call left it, as if it had been set. *)
Lemma evaluate_unfold X (a : arguments_of Real N M X) this :
  evaluate X a this
  = (fst (invoke (member X this) a),
     object_after (setter X (snd (invoke (member X this) a))) this).
Proof. destruct X; try destruct a; reflexivity. Qed.

(** Storing again the handle that is stored changes nothing. *)
Lemma setter_same_handle X this :
  object_after (setter X (member X this)) this = this.
Proof. destruct X; destruct this; reflexivity. Qed.

Lemma operation_eq X Y : {X = Y} + {X <> Y}.
Proof. decide equality. Defined.

Lemma getter_unfold X this :
  getter X this = (Returns (member X this), this).
Proof. destruct X; reflexivity. Qed.

Lemma setter_returns X (H : handle_of Real N M X) this :
  outcome_of (setter X H) this = Returns tt.
Proof. destruct X; reflexivity. Qed.

Lemma member_setter_same X (H : handle_of Real N M X) this :
  member X (object_after (setter X H) this) = H.
Proof. destruct X; reflexivity. Qed.

Lemma member_setter_other X Y (H : handle_of Real N M X) this :
  X ≠ Y -> member Y (object_after (setter X H) this) = member Y this.
Proof. destruct X, Y; intros Hne; try reflexivity; contradiction Hne; reflexivity. Qed.

Lemma ProblemWrapper_copy_eq other : ProblemWrapper_copy other = other.
Proof. destruct other; reflexivity. Qed.

(** The outcome of a call through an address depends only on the object
    stored there. *)
Lemma call_on_outcome {T} (p : address) (method : Method (ProblemWrapper Real N M) T)
    (memory : gmap address (ProblemWrapper Real N M)) :
  fst <$> call_on p method memory = outcome_of method <$> memory !! p.
Proof.
  unfold call_on, outcome_of.
  destruct (memory !! p) as [object|]; [|reflexivity].
  cbn. destruct (method object); reflexivity.
Qed.

Lemma call_on_other {T} (p q : address) (method : Method (ProblemWrapper Real N M) T)
    (memory memory' : gmap address (ProblemWrapper Real N M)) (result : outcome T) :
  q <> p ->
  call_on q method memory = Some (result, memory') ->
  memory' !! p = memory !! p.
Proof.
  unfold call_on. intros Hne Hcall.
  destruct (memory !! q) as [object|]; [|discriminate].
  destruct (method object) as [r object']. injection Hcall as _ <-.
  apply lookup_insert_ne. exact Hne.
Qed.

Lemma construct_fresh (object : ProblemWrapper Real N M)
    (memory : gmap address (ProblemWrapper Real N M)) (p : address) :
  is_Some (memory !! p) -> fst (construct object memory) <> p.
Proof.
  intros Hp Heq. apply elem_of_dom in Hp. cbn in Heq. subst p.
  exact (is_fresh (dom memory) Hp).
Qed.

(** C1. Pure delegation: on a wrapper built by the six-handle constructor,
    each of the six evaluation operations yields exactly what calling the
    handle supplied for it yields on the same arguments (its value, or the
    exception it throws), and leaves the object as constructed but for what
    that call did to the handle itself (nothing is cached, transformed or
    validated). *)
Theorem six_handle_delegation
    (f : ObjectiveFunc Real N) (df : ObjectiveGradientFunc Real N)
    (ddf : ObjectiveHessianFunc Real N) (g : ConstraintsFunc Real N M)
    (dg : ConstraintsJacobianFunc Real N M) (ddL : LagrangianHessianFunc Real N M)
    x z :
  let this := ProblemWrapper_6 f df ddf g dg ddL in
  objective x this
  = (fst (invoke f x), ProblemWrapper_6 (snd (invoke f x)) df ddf g dg ddL)
  /\ objective_gradient x this
     = (fst (invoke df x), ProblemWrapper_6 f (snd (invoke df x)) ddf g dg ddL)
  /\ objective_hessian x this
     = (fst (invoke ddf x), ProblemWrapper_6 f df (snd (invoke ddf x)) g dg ddL)
  /\ constraints x this
     = (fst (invoke g x), ProblemWrapper_6 f df ddf (snd (invoke g x)) dg ddL)
  /\ constraints_jacobian x z this
     = (fst (invoke dg (x, z)), ProblemWrapper_6 f df ddf g (snd (invoke dg (x, z))) ddL)
  /\ lagrangian_hessian x z this
     = (fst (invoke ddL (x, z)),
        ProblemWrapper_6 f df ddf g dg (snd (invoke ddL (x, z)))).
Proof. repeat split. Qed.

(** C2, as the code has it. On a wrapper built by the five-handle
    constructor, evaluating [objective_hessian] throws
    [std::bad_function_call] at the call, returns no value and changes
    nothing.  Each of the other five evaluations does not fail for lack of a
    handle when the handle supplied for it to the constructor holds a
    callable: it then completes as that callable does.  When the supplied
    handle is itself empty, it throws [std::bad_function_call] too. *)
Theorem five_handle_unset_hessian
    (f : ObjectiveFunc Real N) (df : ObjectiveGradientFunc Real N)
    (g : ConstraintsFunc Real N M)
    (dg : ConstraintsJacobianFunc Real N M) (ddL : LagrangianHessianFunc Real N M)
    x z :
  let this := ProblemWrapper_5 f df g dg ddL in
  objective_hessian x this = (Throws bad_function_call, this)
  /\ completes_as f x (outcome_of (objective x) this)
  /\ completes_as df x (outcome_of (objective_gradient x) this)
  /\ completes_as g x (outcome_of (constraints x) this)
  /\ completes_as dg (x, z) (outcome_of (constraints_jacobian x z) this)
  /\ completes_as ddL (x, z) (outcome_of (lagrangian_hessian x z) this).
Proof.
  cbv zeta. split; [reflexivity|].
  destruct f, df, g, dg, ddL; repeat split.
Qed.

(** C3. Setter/getter round trip: for each of the six operations, the
    getter called after the setter returns the handle that was set,
    whatever that handle is (an empty one included). *)
Theorem setter_getter_round_trip this :
  (forall H, outcome_of (set_objective H >> get_objective) this = Returns H)
  /\ (forall H, outcome_of (set_objective_gradient H >> get_objective_gradient) this
               = Returns H)
  /\ (forall H, outcome_of (set_objective_hessian H >> get_objective_hessian) this
               = Returns H)
  /\ (forall H, outcome_of (set_constraints H >> get_constraints) this = Returns H)
  /\ (forall H, outcome_of (set_constraints_jacobian H >> get_constraints_jacobian) this
               = Returns H)
  /\ (forall H, outcome_of (set_lagrangian_hessian H >> get_lagrangian_hessian) this
               = Returns H).
Proof. repeat split. Qed.

(** C4. Frame property of a setter: after the setter of operation X is
    called with handle H, evaluating X calls H, while for every other
    operation Y the stored handle and the outcome of every evaluation are
    what they were before. *)
Theorem setter_frame X Y (H : handle_of Real N M X) this
    (a : arguments_of Real N M X) (b : arguments_of Real N M Y) :
  X <> Y ->
  let this' := object_after (setter X H) this in
  outcome_of (evaluate X a) this' = fst (invoke H a)
  /\ outcome_of (getter Y) this' = outcome_of (getter Y) this
  /\ outcome_of (evaluate Y b) this' = outcome_of (evaluate Y b) this.
Proof.
  intros Hne this'. unfold outcome_of.
  rewrite !evaluate_unfold, !getter_unfold. cbn [fst].
  subst this'. rewrite member_setter_same, (member_setter_other X Y) by exact Hne.
  repeat split.
Qed.


(** C9. Getters never fail: the getter of any operation returns the stored
    handle and leaves the object alone, also when the handle is empty.  In
    particular, after the five-handle constructor the getter of
    [objective_hessian] returns the empty handle, and only evaluating that
    operation throws. *)
Theorem getters_never_fail
    (f : ObjectiveFunc Real N) (df : ObjectiveGradientFunc Real N)
    (g : ConstraintsFunc Real N M)
    (dg : ConstraintsJacobianFunc Real N M) (ddL : LagrangianHessianFunc Real N M)
    X this x :
  getter X this = (Returns (member X this), this)
  /\ getter X default_members = (Returns nullptr, default_members (Real:=Real) (N:=N) (M:=M))
  /\ (let built := ProblemWrapper_5 f df g dg ddL in
      get_objective_hessian built = (Returns nullptr, built)
      /\ objective_hessian x built = (Throws bad_function_call, built)).
Proof.
  split; [apply getter_unfold|].
  split; [destruct X; reflexivity|].
  split; reflexivity.
Qed.

(** C10. Copy independence: the copy constructor makes a new object, at
    another address, that stores the same six handles as the original at
    that time; the original is untouched by the copy, and a setter called
    on the copy afterwards changes neither the handles the original
    stores nor the outcome of any evaluation of the original. *)
Theorem copy_is_independent
    (memory memory' : gmap address (ProblemWrapper Real N M)) (p q : address)
    X (H : handle_of Real N M X) Y (b : arguments_of Real N M Y) :
  copy_construct p memory = Some (q, memory') ->
  q <> p
  /\ memory' !! q = memory !! p
  /\ memory' !! p = memory !! p
  /\ exists memory'',
       call_on q (setter X H) memory' = Some (Returns tt, memory'')
       /\ memory'' !! p = memory !! p
       /\ fst <$> call_on p (getter Y) memory'' = fst <$> call_on p (getter Y) memory
       /\ fst <$> call_on p (evaluate Y b) memory''
          = fst <$> call_on p (evaluate Y b) memory.
Proof.
  unfold copy_construct. intros Hcopy.
  destruct (memory !! p) as [original|] eqn:Hp; [|discriminate].
  rewrite ProblemWrapper_copy_eq in Hcopy.
  assert (Hnew : construct original memory = (q, memory')) by congruence.
  clear Hcopy. rename Hnew into Hcopy.
  assert (Hq : q <> p).
  { replace q with (fst (construct original memory)) by (rewrite Hcopy; reflexivity).
    apply construct_fresh. rewrite Hp. eauto. }
  unfold construct in Hcopy. injection Hcopy as Hfresh <-. rewrite Hfresh.
  assert (Hq' : <[q:=original]> memory !! q = Some original) by apply lookup_insert_eq.
  assert (Hp' : <[q:=original]> memory !! p = Some original).
  { rewrite lookup_insert_ne by exact Hq. exact Hp. }
  split; [exact Hq|]. split; [exact Hq'|]. split; [exact Hp'|].
  destruct (call_on q (setter X H) (<[q:=original]> memory))
    as [[result memory'']|] eqn:Hcall.
  - assert (Hresult : result = Returns tt).
    { pose proof (call_on_outcome q (setter X H) (<[q:=original]> memory)) as Ho.
      rewrite Hcall, Hq' in Ho. cbn in Ho. rewrite setter_returns in Ho.
      congruence. }
    subst result. exists memory''.
    assert (Hframe : memory'' !! p = Some original).
    { rewrite (call_on_other p q _ _ _ _ Hq Hcall). exact Hp'. }
    split; [reflexivity|]. split; [exact Hframe|].
    rewrite !call_on_outcome, Hframe, Hp. split; reflexivity.
  - exfalso. unfold call_on in Hcall. rewrite Hq' in Hcall.
    destruct (setter X H original); discriminate.
Qed.

End Properties.

(** ** Definition-time validation *)

Lemma static_assert_passes cond msg : static_assert cond msg = [] <-> cond = true.
Proof. destruct cond; cbn; split; congruence. Qed.

Lemma Problem_static_asserts_nil (Real : cxx_type) (N M : Integer) :
  Problem_static_asserts Real N M = []
  <-> is_floating_point Real = true /\ (0 < N)%Z /\ (0 < M)%Z.
Proof.
  unfold Problem_static_asserts.
  rewrite !app_nil, !static_assert_passes, !Z.ltb_lt. reflexivity.
Qed.

(** C5. Definition-time validation: [Problem<Real, N, M>], and with it
    [ProblemWrapper<Real, N, M>], is defined exactly when [Real] is a
    floating-point type and [N] and [M] are positive; otherwise the
    instantiation is ill-formed, with the messages of the failed assertions
    and no class.  The member functions of a defined class test none of
    this: every evaluation is the call of the stored handle and nothing
    else. *)
Theorem definition_time_validation (Real : cxx_type) (N M : Integer) :
  (instantiate_Problem Real N M = Defined_class
   <-> is_floating_point Real = true /\ (0 < N)%Z /\ (0 < M)%Z)
  /\ (instantiate_Problem Real N M <> Defined_class
      <-> instantiate_Problem Real N M = Ill_formed (Problem_static_asserts Real N M)
          /\ Problem_static_asserts Real N M <> [])
  /\ instantiate_ProblemWrapper Real N M = instantiate_Problem Real N M
  /\ (forall (R : Type) (n m : nat) (this : ProblemWrapper R n m)
        X (a : arguments_of R n m X),
        evaluate X a this
        = (fst (invoke (member X this) a),
           object_after (setter X (snd (invoke (member X this) a))) this)).
Proof.
  split; [|split; [|split]].
  - rewrite <- Problem_static_asserts_nil. unfold instantiate_Problem.
    destruct (Problem_static_asserts Real N M); split; congruence.
  - unfold instantiate_Problem.
    destruct (Problem_static_asserts Real N M); split.
    + intros Hne. contradiction Hne. reflexivity.
    + intros [Hill _]. discriminate Hill.
    + intros _. split; [reflexivity | discriminate].
    + intros _. discriminate.
  - reflexivity.
  - intros R n m this X a. apply evaluate_unfold.
Qed.

(** ** The example scenario *)

(** C6. The example problem (N = 2, M = 2, binary64), evaluated at
    x = (1, 1): the objective is 2, its gradient (2, 2), the constraints
    (0, 0), the Jacobian the identity for every dual vector, and the Hessian
    of the Lagrangian twice the identity. *)
Theorem example_scenario (z : VectorM Scenario.Real 2) :
  outcome_of (objective Scenario.ones) Scenario.problem = Returns 2%float
  /\ outcome_of (objective_gradient Scenario.ones) Scenario.problem
     = Returns [# 2%float; 2%float ]
  /\ outcome_of (constraints Scenario.ones) Scenario.problem
     = Returns [# 0%float; 0%float ]
  /\ outcome_of (constraints_jacobian Scenario.ones z) Scenario.problem
     = Returns [# [# 1%float; 0%float ]; [# 0%float; 1%float ] ]
  /\ outcome_of (lagrangian_hessian Scenario.ones z) Scenario.problem
     = Returns [# [# 2%float; 0%float ]; [# 0%float; 2%float ] ].
Proof. repeat split. Qed.

(** ** Dimensions *)

Lemma matrix_shape {A n m} (J : vec (vec A n) m) :
  rows_of J = m /\ row_lengths_of J = replicate m n.
Proof.
  unfold rows_of, row_lengths_of. split; [apply length_vec_to_list|].
  induction J as [|row k J IH]; [reflexivity|].
  cbn. rewrite length_vec_to_list. f_equal. exact IH.
Qed.

(** C7. Dimension consistency for N = 2, M = 2: every argument of
    [objective] is a vector of length 2 and its outcome is one scalar, and
    every matrix that [constraints_jacobian] returns has 2 rows of length 2.
    The shapes come with the types: the call itself is the call of the
    stored handle, with no test. *)
Theorem dimension_consistency {Real : Type} (this : ProblemWrapper Real 2 2)
    (x : VectorN Real 2) (z : VectorM Real 2) (J : MatrixJ Real 2 2) :
  outcome_of (constraints_jacobian x z) this = Returns J ->
  length (vec_to_list x) = 2
  /\ (outcome_of (objective x) this : outcome Real) = fst (invoke (m_objective this) x)
  /\ rows_of J = 2
  /\ row_lengths_of J = [2; 2]
  /\ constraints_jacobian x z this
     = (fst (invoke (m_constraints_jacobian this) (x, z)),
        object_after
          (set_constraints_jacobian (snd (invoke (m_constraints_jacobian this) (x, z))))
          this).
Proof.
  intros _. destruct (matrix_shape J) as [Hrows Hcols].
  split; [apply length_vec_to_list|].
  split; [reflexivity|]. split; [exact Hrows|]. split; [exact Hcols|reflexivity].
Qed.

(** ** Concrete instances *)

(** Against C2 as stated.  The five-handle constructor takes any
    [std::function], an empty one included: built with an empty objective
    handle, the wrapper throws [std::bad_function_call] on [objective], an
    operation other than [objective_hessian]. *)
Lemma five_handle_empty_objective_throws :
  let this : ProblemWrapper Scenario.Real 2 2 :=
    ProblemWrapper_5 nullptr (Some (pure_target Scenario.grad_f))
      (Some (pure_target Scenario.g)) (Some (pure_target Scenario.jac_g))
      (Some (pure_target Scenario.hess_L)) in
  outcome_of (objective Scenario.ones) this = Throws bad_function_call.
Proof. reflexivity. Qed.


(** [setter_frame] on the example: the objective is replaced by the zero
    function, and the constraints are looked at. *)
Lemma setter_frame_example :
  Objective <> Constraints
  /\ (let this' :=
        object_after (setter Objective (Some (pure_target (fun _ => 0%float))))
          Scenario.problem in
      outcome_of (evaluate Objective Scenario.ones) this' = Returns 0%float
      /\ outcome_of (getter Constraints) this' = Returns (Some (pure_target Scenario.g))
      /\ outcome_of (evaluate Constraints Scenario.ones) this'
         = Returns [# 0%float; 0%float ]).
Proof.
  split; [discriminate|].
  apply (setter_frame (Real:=Scenario.Real) (N:=2) (M:=2) Objective Constraints
           (Some (pure_target (fun _ => 0%float))) Scenario.problem
           Scenario.ones Scenario.ones).
  discriminate.
Defined.


(** [dimension_consistency] on the example, whose Jacobian is the identity. *)
Lemma dimension_consistency_example :
  outcome_of (constraints_jacobian Scenario.ones Scenario.ones) Scenario.problem
  = Returns Scenario.identity
  /\ (length (vec_to_list Scenario.ones) = 2
      /\ (outcome_of (objective Scenario.ones) Scenario.problem : outcome Scenario.Real)
         = fst (invoke (m_objective Scenario.problem) Scenario.ones)
      /\ rows_of Scenario.identity = 2
      /\ row_lengths_of Scenario.identity = [2; 2]
      /\ constraints_jacobian Scenario.ones Scenario.ones Scenario.problem
         = (fst (invoke (m_constraints_jacobian Scenario.problem)
                   (Scenario.ones, Scenario.ones)),
            Scenario.problem)).
Proof.
  split; [reflexivity|].
  apply (dimension_consistency Scenario.problem Scenario.ones Scenario.ones Scenario.identity).
  reflexivity.
Defined.

(** [copy_is_independent] on a memory that holds the example at address 0:
    the copy is made at address 1, and its objective handle is then
    cleared. *)
Lemma copy_is_independent_example :
  let memory : gmap address (ProblemWrapper Scenario.Real 2 2) :=
    {[ 0 := Scenario.problem ]} in
  let memory' : gmap address (ProblemWrapper Scenario.Real 2 2) :=
    <[ 1 := Scenario.problem ]> memory in
  copy_construct 0 memory = Some (1, memory')
  /\ (1 <> 0
      /\ memory' !! 1 = memory !! 0
      /\ memory' !! 0 = memory !! 0
      /\ exists memory'',
           call_on 1 (setter Objective nullptr) memory' = Some (Returns tt, memory'')
           /\ memory'' !! 0 = memory !! 0
           /\ fst <$> call_on 0 (getter Objective) memory''
              = fst <$> call_on 0 (getter Objective) memory
           /\ fst <$> call_on 0 (evaluate Objective Scenario.ones) memory''
              = fst <$> call_on 0 (evaluate Objective Scenario.ones) memory).
Proof.
  cbv zeta.
  assert (Hcopy : copy_construct 0 ({[ 0 := Scenario.problem ]}
                    : gmap address (ProblemWrapper Scenario.Real 2 2))
                  = Some (1, <[ 1 := Scenario.problem ]> {[ 0 := Scenario.problem ]})).
  { vm_compute. reflexivity. }
  split; [exact Hcopy|].
  exact (copy_is_independent _ _ 0 1 Objective nullptr Objective Scenario.ones Hcopy).
Defined.

(** ** How the member functions compose *)

Section Composition.

Context {Real : Type} {N M : nat}.

Implicit Types (this other : ProblemWrapper Real N M).
Implicit Types (X Y : operation).

Lemma and_then_unfold {S T U} (m : Method S T) (k : Method S U) (s : S) :
  (m >> k) s
  = match m s with
    | (Returns _, s') => k s'
    | (Throws e, s') => (Throws e, s')
    end.
Proof. reflexivity. Qed.

Lemma setter_unfold X (H : handle_of Real N M X) this :
  setter X H this = (Returns tt, object_after (setter X H) this).
Proof. destruct X; reflexivity. Qed.


(** A wrapper is its six handles and nothing more. *)
Lemma ProblemWrapper_ext this other :
  (forall X, member X this = member X other) -> this = other.
Proof.
  intros Hsame. destruct this, other.
  pose proof (Hsame Objective) as H1. pose proof (Hsame ObjectiveGradient) as H2.
  pose proof (Hsame ObjectiveHessian) as H3. pose proof (Hsame Constraints) as H4.
  pose proof (Hsame ConstraintsJacobian) as H5. pose proof (Hsame LagrangianHessian) as H6.
  cbn in H1, H2, H3, H4, H5, H6. congruence.
Qed.

Lemma run_setters_unfold (calls : list (setter_call Real N M)) this :
  run_setters calls this = (Returns tt, object_after (run_setters calls) this).
Proof.
  revert this. induction calls as [|[X H] calls IH]; intros this; [reflexivity|].
  unfold object_after.
  change (run_setters (existT X H :: calls)) with (setter X H >> run_setters calls).
  rewrite and_then_unfold, setter_unfold. cbv beta iota.
  rewrite IH. reflexivity.
Qed.

Lemma run_setters_cons X (H : handle_of Real N M X)
    (calls : list (setter_call Real N M)) this :
  object_after (run_setters (existT X H :: calls)) this
  = object_after (run_setters calls) (object_after (setter X H) this).
Proof.
  unfold object_after at 1.
  change (run_setters (existT X H :: calls)) with (setter X H >> run_setters calls).
  rewrite and_then_unfold, setter_unfold. reflexivity.
Qed.

Lemma run_setters_app (first second : list (setter_call Real N M)) this :
  object_after (run_setters (first ++ second)) this
  = object_after (run_setters second) (object_after (run_setters first) this).
Proof.
  revert this. induction first as [|[X H] first IH]; intros this; [reflexivity|].
  cbn [app]. rewrite !run_setters_cons. apply IH.
Qed.

(** An operation that no call of the program names keeps its handle. *)
Lemma run_setters_frame (calls : list (setter_call Real N M)) Y this :
  Forall (fun c => projT1 c <> Y) calls ->
  member Y (object_after (run_setters calls) this) = member Y this.
Proof.
  intros Hcalls. revert this.
  induction Hcalls as [|[X H] calls Hne _ IH]; intros this; [reflexivity|].
  rewrite run_setters_cons, IH. apply member_setter_other. exact Hne.
Qed.


(** X2. Last write wins, over any program of setter calls: if [p.X(H)] is
    followed only by setter calls for other operations, then at the end the
    sequence has returned, the handle stored for X is H (so the getter
    returns H and evaluating X calls H), and every operation that no call
    of the program names still has the handle it had at the start. *)
Theorem last_setter_wins (before after : list (setter_call Real N M))
    X (H : handle_of Real N M X) this :
  Forall (fun c => projT1 c <> X) after ->
  let program := before ++ existT X H :: after in
  let final := object_after (run_setters program) this in
  outcome_of (run_setters program) this = Returns tt
  /\ outcome_of (getter X) final = Returns H
  /\ (forall a, outcome_of (evaluate X a) final = fst (invoke H a))
  /\ (forall Y, Forall (fun c => projT1 c <> Y) program ->
                member Y final = member Y this).
Proof.
  intros Hafter program final. subst final program.
  split; [unfold outcome_of; rewrite run_setters_unfold; reflexivity|].
  assert (HX : member X (object_after (run_setters (before ++ existT X H :: after)) this)
               = H).
  { rewrite run_setters_app, run_setters_cons.
    rewrite run_setters_frame by exact Hafter. apply member_setter_same. }
  unfold outcome_of. split; [rewrite getter_unfold; cbn [fst]; congruence|].
  split.
  - intros a. rewrite evaluate_unfold. cbn [fst]. rewrite HX. reflexivity.
  - intros Y HY. apply run_setters_frame. exact HY.
Qed.

(** X3. Reading a handle and setting it back changes nothing: the getter of
    X followed by the setter of X on the handle just read returns and
    leaves the object exactly as it was. *)
Theorem get_then_set_is_identity X this :
  bind (getter X) (setter X) this = (Returns tt, this).
Proof. destruct X; destruct this; reflexivity. Qed.

(** X4. The two constructors agree: a wrapper built with five handles whose
    Hessian of the objective is then set is the wrapper the six-handle
    constructor builds from the same handles; and a six-handle wrapper
    whose Hessian of the objective is cleared is the five-handle one. *)
Theorem five_handles_then_hessian_is_six_handles
    (f : ObjectiveFunc Real N) (df : ObjectiveGradientFunc Real N)
    (ddf : ObjectiveHessianFunc Real N) (g : ConstraintsFunc Real N M)
    (dg : ConstraintsJacobianFunc Real N M) (ddL : LagrangianHessianFunc Real N M) :
  set_objective_hessian ddf (ProblemWrapper_5 f df g dg ddL)
  = (Returns tt, ProblemWrapper_6 f df ddf g dg ddL)
  /\ set_objective_hessian nullptr (ProblemWrapper_6 f df ddf g dg ddL)
     = (Returns tt, ProblemWrapper_5 f df g dg ddL).
Proof. split; reflexivity. Qed.

(** X5. A wrapper has no state besides its six handles: two wrappers whose
    six getters return the same handles are the same object state, so every
    member function behaves the same on both. *)
Theorem same_getters_same_wrapper this other :
  (forall X, outcome_of (getter X) this = outcome_of (getter X) other) ->
  this = other
  /\ forall T (method : Method (ProblemWrapper Real N M) T),
       outcome_of method this = outcome_of method other.
Proof.
  intros Hsame.
  assert (Heq : this = other).
  { apply ProblemWrapper_ext. intros X. specialize (Hsame X).
    unfold outcome_of in Hsame. rewrite !getter_unfold in Hsame. cbn in Hsame.
    congruence. }
  split; [exact Heq|]. intros T method. rewrite Heq. reflexivity.
Qed.

(** X6. The handle that the getter of X returns decides what evaluating X
    does: when it is empty, the evaluation throws [std::bad_function_call]
    and leaves the wrapper as it was; when it holds a callable, the
    evaluation completes as that callable does on the arguments, with its
    value or with its exception. *)
Theorem getter_guards_evaluation X (a : arguments_of Real N M X) this :
  exists h : handle_of Real N M X,
    outcome_of (getter X) this = Returns h
    /\ completes_as h a (outcome_of (evaluate X a) this)
    /\ (has_target h = false ->
        evaluate X a this = (Throws bad_function_call, this)).
Proof.
  exists (member X this). unfold outcome_of.
  rewrite getter_unfold, evaluate_unfold. cbn [fst].
  split; [reflexivity|]. split.
  - destruct (member X this); reflexivity.
  - intros Hempty. destruct (member X this) as [callable|] eqn:Hmember;
      [discriminate Hempty|].
    cbn [invoke fst snd]. rewrite <- Hmember, setter_same_handle. reflexivity.
Qed.

Lemma evaluate_other_member X Y (a : arguments_of Real N M X) this :
  X <> Y -> member Y (object_after (evaluate X a) this) = member Y this.
Proof.
  intros Hne. unfold object_after. rewrite evaluate_unfold. cbn [snd].
  apply member_setter_other. exact Hne.
Qed.

Lemma evaluate_keeps_targets X Y (a : arguments_of Real N M X) this :
  has_target (member Y (object_after (evaluate X a) this)) = has_target (member Y this).
Proof.
  destruct (operation_eq X Y) as [<-|Hne].
  - unfold object_after at 1. rewrite evaluate_unfold. cbn [snd].
    rewrite member_setter_same. destruct (member X this); reflexivity.
  - rewrite evaluate_other_member by exact Hne. reflexivity.
Qed.

(** The object after a batch: after its first evaluation when that one
    throws, and after the rest of the batch otherwise. *)
Lemma run_evaluations_cons X (a : arguments_of Real N M X)
    (calls : list (evaluation_call Real N M)) this :
  object_after (run_evaluations (existT X a :: calls)) this
  = match outcome_of (evaluate X a) this with
    | Returns _ => object_after (run_evaluations calls) (object_after (evaluate X a) this)
    | Throws _ => object_after (evaluate X a) this
    end.
Proof.
  unfold object_after at 1, outcome_of.
  change (run_evaluations (existT X a :: calls))
    with (evaluate X a >> run_evaluations calls).
  rewrite and_then_unfold. unfold object_after.
  destruct (evaluate X a this) as [[v|e] this']; reflexivity.
Qed.

(** X9. Evaluations never set or clear a handle: after any number of
    evaluations made in a row, whether they return or one of them throws
    and whatever state their callables keep, every operation that had a
    handle still has one and every operation that had none still has none;
    and an operation that the batch does not evaluate stores exactly the
    handle it stored before. *)
Theorem evaluations_in_a_row (calls : list (evaluation_call Real N M)) this :
  let final := object_after (run_evaluations calls) this in
  (forall Y, has_target (member Y final) = has_target (member Y this))
  /\ (forall Y, Forall (fun c => projT1 c <> Y) calls ->
                member Y final = member Y this).
Proof.
  cbv zeta. revert this.
  induction calls as [|[X a] calls IH]; intros this; [split; reflexivity|].
  rewrite run_evaluations_cons.
  destruct (outcome_of (evaluate X a) this) as [v|e].
  - destruct (IH (object_after (evaluate X a) this)) as [IHtargets IHframe].
    split.
    + intros Y. rewrite IHtargets. apply evaluate_keeps_targets.
    + intros Y Hcalls. apply Forall_cons in Hcalls as [Hne Hcalls].
      rewrite IHframe by exact Hcalls. apply evaluate_other_member. exact Hne.
  - split.
    + intros Y. apply evaluate_keeps_targets.
    + intros Y Hcalls. apply Forall_cons in Hcalls as [Hne _].
      apply evaluate_other_member. exact Hne.
Qed.

(** X7. A copy is a snapshot: after the copy constructor has run, a setter
    called on the original returns and leaves the copy as it was made, so
    the getters and the evaluations of the copy still answer as the original
    did when it was copied. *)
Theorem copy_is_a_snapshot
    (memory memory' : gmap address (ProblemWrapper Real N M)) (p q : address)
    X (H : handle_of Real N M X) Y (b : arguments_of Real N M Y) :
  copy_construct p memory = Some (q, memory') ->
  exists memory'',
    call_on p (setter X H) memory' = Some (Returns tt, memory'')
    /\ memory'' !! q = memory !! p
    /\ fst <$> call_on q (getter Y) memory'' = fst <$> call_on p (getter Y) memory
    /\ fst <$> call_on q (evaluate Y b) memory''
       = fst <$> call_on p (evaluate Y b) memory.
Proof.
  intros Hcopy.
  assert (Hp : is_Some (memory !! p)).
  { unfold copy_construct in Hcopy. destruct (memory !! p); [eauto|discriminate]. }
  destruct Hp as [original Hp].
  assert (Hnew : construct original memory = (q, memory')).
  { unfold copy_construct in Hcopy. rewrite Hp, ProblemWrapper_copy_eq in Hcopy.
    congruence. }
  assert (Hq : q <> p).
  { replace q with (fst (construct original memory)) by (rewrite Hnew; reflexivity).
    apply construct_fresh. rewrite Hp. eauto. }
  unfold construct in Hnew. injection Hnew as Hfresh <-. rewrite Hfresh.
  assert (Hp' : <[q:=original]> memory !! p = Some original).
  { rewrite lookup_insert_ne by exact Hq. exact Hp. }
  exists (<[p:=object_after (setter X H) original]> (<[q:=original]> memory)).
  assert (Hq'' : <[p:=object_after (setter X H) original]> (<[q:=original]> memory) !! q
                 = Some original).
  { rewrite lookup_insert_ne by congruence. apply lookup_insert_eq. }
  split.
  - unfold call_on. rewrite Hp', setter_unfold. reflexivity.
  - split; [rewrite Hq'', Hp; reflexivity|].
    rewrite !call_on_outcome, Hq'', Hp. split; reflexivity.
Qed.

End Composition.

(** ** Diagnostics *)

(** X8. Each static assertion of [Problem] reports its own template
    argument: the message about [Real] is among the diagnostics exactly when
    [Real] is not a floating-point type, the message about [N] exactly when
    [N <= 0], the message about [M] exactly when [M <= 0], whatever the other
    two arguments are. *)
Theorem static_assert_diagnostics (Real : cxx_type) (N M : Integer) :
  (In "Pipal::Problem: template argument 'Real' must be a floating-point type."%string
      (Problem_static_asserts Real N M)
   <-> is_floating_point Real = false)
  /\ (In "Pipal::Problem: template argument 'N' must be positive."%string
         (Problem_static_asserts Real N M)
      <-> (N <= 0)%Z)
  /\ (In "Pipal::Problem: template argument 'M' must be positive."%string
         (Problem_static_asserts Real N M)
      <-> (M <= 0)%Z).
Proof.
  unfold Problem_static_asserts, static_assert.
  rewrite <- !Z.ltb_ge.
  destruct (is_floating_point Real), (0 <? N)%Z, (0 <? M)%Z; cbn;
    repeat split; intros Hin;
    try discriminate; try tauto;
    repeat (destruct Hin as [Hin|Hin]; [apply String.eqb_eq in Hin; discriminate Hin|]);
    try contradiction.
Qed.

(** ** Concrete instances of the composition properties *)


(** [last_setter_wins] on the example: the objective is set to itself, then
    cleared, then the constraints are cleared. *)
Lemma last_setter_wins_example :
  let before : list (setter_call Scenario.Real 2 2) :=
    [existT Objective (Some (pure_target Scenario.f))] in
  let after : list (setter_call Scenario.Real 2 2) :=
    [existT Constraints nullptr] in
  Forall (fun c => projT1 c <> Objective) after
  /\ (let program := before ++ existT Objective nullptr :: after in
      let final := object_after (run_setters program) Scenario.problem in
      outcome_of (run_setters program) Scenario.problem = Returns tt
      /\ outcome_of (getter Objective) final = Returns nullptr
      /\ (forall a, outcome_of (evaluate Objective a) final = fst (invoke nullptr a))
      /\ (forall Y, Forall (fun c => projT1 c <> Y) program ->
                    member Y final = member Y Scenario.problem)).
Proof.
  cbv zeta.
  assert (Hafter : Forall (fun c : setter_call Scenario.Real 2 2 => projT1 c <> Objective)
                     [existT Constraints nullptr]).
  { constructor; [discriminate|constructor]. }
  split; [exact Hafter|].
  exact (last_setter_wins [existT Objective (Some (pure_target Scenario.f))]
           [existT Constraints nullptr] Objective nullptr Scenario.problem Hafter).
Defined.

(** [same_getters_same_wrapper] on the example and on the example after its
    Hessian of the objective, which was never set, is cleared. *)
Lemma same_getters_same_wrapper_example :
  let this := Scenario.problem in
  let other := object_after (set_objective_hessian nullptr) Scenario.problem in
  (forall X, outcome_of (getter X) this = outcome_of (getter X) other)
  /\ (this = other
      /\ forall T (method : Method (ProblemWrapper Scenario.Real 2 2) T),
           outcome_of method this = outcome_of method other).
Proof.
  cbv zeta.
  assert (Hsame : forall X,
            outcome_of (getter X) Scenario.problem
            = outcome_of (getter X)
                (object_after (set_objective_hessian nullptr) Scenario.problem)).
  { intros []; reflexivity. }
  split; [exact Hsame|].
  exact (same_getters_same_wrapper Scenario.problem
           (object_after (set_objective_hessian nullptr) Scenario.problem) Hsame).
Defined.

(** [copy_is_a_snapshot] on a memory that holds the example at address 0:
    the copy is made at address 1, and the objective of the original is
    then cleared. *)
Lemma copy_is_a_snapshot_example :
  let memory : gmap address (ProblemWrapper Scenario.Real 2 2) :=
    {[ 0 := Scenario.problem ]} in
  let memory' : gmap address (ProblemWrapper Scenario.Real 2 2) :=
    <[ 1 := Scenario.problem ]> memory in
  copy_construct 0 memory = Some (1, memory')
  /\ exists memory'',
       call_on 0 (setter Objective nullptr) memory' = Some (Returns tt, memory'')
       /\ memory'' !! 1 = memory !! 0
       /\ fst <$> call_on 1 (getter Objective) memory''
          = fst <$> call_on 0 (getter Objective) memory
       /\ fst <$> call_on 1 (evaluate Objective Scenario.ones) memory''
          = fst <$> call_on 0 (evaluate Objective Scenario.ones) memory.
Proof.
  cbv zeta.
  assert (Hcopy : copy_construct 0 ({[ 0 := Scenario.problem ]}
                    : gmap address (ProblemWrapper Scenario.Real 2 2))
                  = Some (1, <[ 1 := Scenario.problem ]> {[ 0 := Scenario.problem ]})).
  { vm_compute. reflexivity. }
  split; [exact Hcopy|].
  exact (copy_is_a_snapshot _ _ 0 1 Objective nullptr Objective Scenario.ones Hcopy).
Defined.

End Pipal.
